(** * solfs-sdk: the instruction builders and the metadata parser

    A shallow embedding of [src/utils/serialization.ts] and [src/index.ts]:
    the argument classes, the schema table, the serializer entry point, the
    five instruction builders of [DataStoreProgram], and the metadata
    parser.

    The libraries the SDK calls into are modelled by what they do on the
    arguments the SDK gives them:
    - [sha256] of @noble/hashes is SHA-256 (FIPS 180-4), written out below
      and checked on the standard test messages;
    - [serialize] of borsh is handed one struct descriptor where it looks
      for the class of the object with [schema.get]: the call throws a
      TypeError;
    - [new BN(n)] of bn.js accepts the numbers below 2^53; sizes and offsets
      are non-negative integers;
    - a [PublicKey] of web3.js is a number below 2^256, printed as 32
      big-endian bytes or in base 58;
    - [PublicKey.findProgramAddressSync] is taken as an interface ([Web3]):
      a function of its seeds and program id that may throw.

    A function that throws is a function into [Result]. *)

From Stdlib Require Import NArith ZArith List String Ascii Lia Bool.
From Stdlib.Strings Require Byte.
From stdpp Require Import base option gmap strings.
Import ListNotations.

Local Open Scope N_scope.

(** ** Bytes and fixed-width integers *)

Abbreviation byte := Byte.byte.

(** The contents of a [Buffer] or [Uint8Array]. *)
Abbreviation Buffer := (list Byte.byte).

#[global] Instance byte_eq_dec : EqDecision Byte.byte := Byte.byte_eq_dec.

(** Storing a number into one cell of a byte array keeps its low 8 bits. *)
Definition byte_of_N (n : N) : byte :=
  match Byte.of_N (n mod 256) with
  | Some b => b
  | None => Byte.x00
  end.

Definition N_of_byte (b : byte) : N := Byte.to_N b.

(** [le_bytes w n]: the [w] low-order bytes of [n], least significant first. *)
Fixpoint le_bytes (w : nat) (n : N) : Buffer :=
  match w with
  | O => []
  | S w' => byte_of_N n :: le_bytes w' (n / 256)
  end.

(** [be_bytes w n]: the same bytes, most significant first. *)
Definition be_bytes (w : nat) (n : N) : Buffer := rev (le_bytes w n).

(** The number a big-endian byte string denotes. *)
Definition N_of_be (bs : Buffer) : N :=
  fold_left (fun acc b => acc * 256 + N_of_byte b) bs 0.

(** The number a little-endian byte string denotes. *)
Fixpoint N_of_le (bs : Buffer) : N :=
  match bs with
  | [] => 0
  | b :: bs' => N_of_byte b + 256 * N_of_le bs'
  end.

(** [Buffer.from(str)] on an ASCII string: one byte per character. *)
Definition Buffer_from_string (s : string) : Buffer :=
  list_byte_of_string s.

(** ** SHA-256 (FIPS 180-4), as computed by [sha256] of @noble/hashes *)

Module SHA256.

Definition mask32 : N := 0xffffffff.
Definition w32 (x : N) : N := N.land x mask32.
Definition add32 (x y : N) : N := w32 (x + y).
Definition not32 (x : N) : N := N.lxor (w32 x) mask32.
Definition rotr (k x : N) : N :=
  w32 (N.lor (N.shiftr x k) (N.shiftl x (32 - k))).

Definition Ch (x y z : N) : N := N.lxor (N.land x y) (N.land (not32 x) z).
Definition Maj (x y z : N) : N :=
  N.lxor (N.lxor (N.land x y) (N.land x z)) (N.land y z).
Definition Sigma0 (x : N) : N :=
  N.lxor (N.lxor (rotr 2 x) (rotr 13 x)) (rotr 22 x).
Definition Sigma1 (x : N) : N :=
  N.lxor (N.lxor (rotr 6 x) (rotr 11 x)) (rotr 25 x).
Definition sigma0 (x : N) : N :=
  N.lxor (N.lxor (rotr 7 x) (rotr 18 x)) (N.shiftr x 3).
Definition sigma1 (x : N) : N :=
  N.lxor (N.lxor (rotr 17 x) (rotr 19 x)) (N.shiftr x 10).

(** The round constants are the first 32 fractional bits of the cube roots
    of the first 64 primes; the initial state, of the square roots of the
    first 8. *)
Definition primes64 : list N :=
  [2; 3; 5; 7; 11; 13; 17; 19; 23; 29; 31; 37; 41; 43; 47; 53;
   59; 61; 67; 71; 73; 79; 83; 89; 97; 101; 103; 107; 109; 113; 127; 131;
   137; 139; 149; 151; 157; 163; 167; 173; 179; 181; 191; 193; 197; 199;
   211; 223; 227; 229; 233; 239; 241; 251; 257; 263; 269; 271; 277; 281;
   283; 293; 307; 311].

(** Integer cube root by bisection on the bits of the result. *)
Fixpoint icbrt_bits (bit : nat) (n r : N) : N :=
  let try_ := r + N.shiftl 1 (N.of_nat bit) in
  let r' := if try_ * try_ * try_ <=? n then try_ else r in
  match bit with
  | O => r'
  | S bit' => icbrt_bits bit' n r'
  end.

Definition icbrt (n : N) : N := icbrt_bits 40 n 0.

Definition K : list N :=
  Eval vm_compute in
    map (fun p => w32 (icbrt (N.shiftl p 96))) primes64.

Definition H0 : list N :=
  Eval vm_compute in
    map (fun p => w32 (N.sqrt (N.shiftl p 64))) (firstn 8 primes64).

(** Padding: a 1 bit, zeros up to 56 mod 64, the bit length on 8 bytes. *)
Definition pad (msg : Buffer) : Buffer :=
  let len := N.of_nat (length msg) in
  let zeros := N.to_nat ((119 - len mod 64) mod 64) in
  msg ++ [Byte.x80] ++ repeat Byte.x00 zeros ++ be_bytes 8 (8 * len).

(** Big-endian 32-bit words of a byte string (a trailing partial word is
    dropped; padded input has none). *)
Fixpoint words (bs : Buffer) : list N :=
  match bs with
  | a :: b :: c :: d :: rest => N_of_be [a; b; c; d] :: words rest
  | _ => []
  end.

(** Message schedule, newest word first: [sched] holds W[t-1], W[t-2], ... *)
Fixpoint extend (n : nat) (sched : list N) : list N :=
  match n with
  | O => sched
  | S n' =>
      let w := fun i => nth i sched 0 in
      let next :=
        add32 (add32 (sigma1 (w 1%nat)) (w 6%nat))
              (add32 (sigma0 (w 14%nat)) (w 15%nat)) in
      extend n' (next :: sched)
  end.

Definition schedule (block : list N) : list N :=
  rev (extend 48 (rev block)).

Record state := State { a : N; b : N; c : N; d : N; e : N; f : N; g : N; h : N }.

Definition round (s : state) (kw : N * N) : state :=
  let '(k, w) := kw in
  let t1 := add32 (add32 (add32 (h s) (Sigma1 (e s))) (Ch (e s) (f s) (g s)))
                  (add32 k w) in
  let t2 := add32 (Sigma0 (a s)) (Maj (a s) (b s) (c s)) in
  State (add32 t1 t2) (a s) (b s) (c s) (add32 (d s) t1) (e s) (f s) (g s).

Definition compress (s : state) (block : list N) : state :=
  let r := fold_left round (combine K (schedule block)) s in
  State (add32 (a s) (a r)) (add32 (b s) (b r)) (add32 (c s) (c r))
        (add32 (d s) (d r)) (add32 (e s) (e r)) (add32 (f s) (f r))
        (add32 (g s) (g r)) (add32 (h s) (h r)).

(** The 16-word blocks of a word list. *)
Fixpoint blocks (fuel : nat) (ws : list N) : list (list N) :=
  match fuel with
  | O => []
  | S fuel' =>
      match ws with
      | [] => []
      | _ => firstn 16 ws :: blocks fuel' (skipn 16 ws)
      end
  end.

Definition init : state :=
  State (nth 0 H0 0) (nth 1 H0 0) (nth 2 H0 0) (nth 3 H0 0)
        (nth 4 H0 0) (nth 5 H0 0) (nth 6 H0 0) (nth 7 H0 0).

Definition digest (s : state) : Buffer :=
  be_bytes 4 (a s) ++ be_bytes 4 (b s) ++ be_bytes 4 (c s) ++ be_bytes 4 (d s) ++
  be_bytes 4 (e s) ++ be_bytes 4 (f s) ++ be_bytes 4 (g s) ++ be_bytes 4 (h s).

Definition sha256 (msg : Buffer) : Buffer :=
  let ws := words (pad msg) in
  digest (fold_left compress (blocks (length ws) ws) init).

End SHA256.

(** ** Exceptions and results *)

Inductive Exception :=
| Error (message : string)
| TypeError (message : string)
| ReferenceError (identifier : string).

(** A call either returns a value or throws. *)
Inductive Result (A : Type) :=
| Ok (value : A)
| Throw (exn : Exception).

Arguments Ok {A} value.
Arguments Throw {A} exn.

#[global] Instance Result_ret : MRet Result := fun _ x => Ok x.
#[global] Instance Result_bind : MBind Result := fun _ _ k r =>
  match r with
  | Ok x => k x
  | Throw exn => Throw exn
  end.

(** ** Values, objects and classes *)

(** The kinds of property value the argument classes hold: [boolean],
    [number], a bn.js [BN] (by magnitude), a [Uint8Array]; and [undefined],
    which is what reading a property that was never supplied yields. *)
Inductive JSValue :=
| VUndefined
| VBool (b : bool)
| VNumber (n : Z)
| VBN (n : N)
| VBytes (bs : Buffer).

(** What [obj.constructor] can be: one of the five argument classes of
    serialization.ts, or any other function ([Object] for a literal). *)
Inductive Constructor :=
| InitializeDataStoreArgs
| UpdateDataStoreArgs
| UpdateDataStoreAuthorityArgs
| FinalizeDataStoreArgs
| CloseDataStoreArgs
| OtherConstructor (name : string).

#[global] Instance Constructor_eq_dec : EqDecision Constructor.
Proof. solve_decision. Defined.

Record JSObject := {
  constructor : Constructor;
  props : gmap string JSValue
}.

(** [obj[name]] *)
Definition get_prop (obj : JSObject) (name : string) : JSValue :=
  default VUndefined (props obj !! name).

(** ** Borsh schemas and [serialize] *)

(** Field types as the schema table spells them: ['bool'], ['u8'], ['u64'],
    [[n]] (a byte array of exactly [n] bytes) and [['u8']] (a byte vector
    behind a 32-bit count). *)
Inductive FieldType :=
| Tbool
| Tu8
| Tu64
| Tfixed (len : nat)
| Tvec_u8.

(** A struct descriptor: the object literal [{ kind: 'struct', fields: [...] }]. *)
Record Schema := {
  kind : string;
  fields : list (string * FieldType)
}.

(** [serialize(schema, obj)] of borsh is written for a [Map] from classes to
    struct descriptors: it begins with [schema.get(obj.constructor)].  Here
    its first argument is one descriptor, a plain object with the properties
    [kind] and [fields].  Such an object has no [get], so the call throws a
    TypeError before any field of the descriptor or any property of [obj]
    is read. *)
Definition serialize (schema : Schema) (obj : JSObject) : Result Buffer :=
  Throw (TypeError "schema.get is not a function").

(** ** serialization.ts *)

Definition struct (fs : list (string * FieldType)) : Schema :=
  {| kind := "struct"; fields := fs |}.

(** [schemas]: the map from class to schema. *)
Definition schemas : list (Constructor * Schema) :=
  [ (InitializeDataStoreArgs,
      struct [ ("debug", Tbool); ("dataType", Tu8); ("bumpSeed", Tu8);
               ("isCreated", Tbool); ("space", Tu64);
               ("authority", Tfixed 32); ("isDynamic", Tbool) ]);
    (UpdateDataStoreArgs,
      struct [ ("debug", Tbool); ("dataHash", Tfixed 32); ("data", Tvec_u8);
               ("offset", Tu64); ("reallocDown", Tbool); ("dataType", Tu8) ]);
    (UpdateDataStoreAuthorityArgs, struct [ ("debug", Tbool) ]);
    (FinalizeDataStoreArgs, struct [ ("debug", Tbool) ]);
    (CloseDataStoreArgs, struct [ ("debug", Tbool) ]) ].

(** [Map.prototype.get] *)
Fixpoint Map_get {V : Type} (m : list (Constructor * V)) (key : Constructor)
  : option V :=
  match m with
  | [] => None
  | (k, v) :: rest => if decide (k = key) then Some v else Map_get rest key
  end.

Definition serializeInstructionData (instruction : JSObject) : Result Buffer :=
  match Map_get schemas (constructor instruction) with
  | None => Throw (Error "Schema not found for instruction")
  | Some schema => serialize schema instruction
  end.

Definition calculateDataHash (data : Buffer) : Buffer := SHA256.sha256 data.

(** ** bn.js and web3.js wrappers *)

(** [new BN(number)]: the constructor asserts the number is below 2^53. *)
Definition new_BN (number : N) : Result N :=
  if decide (number < 2 ^ 53) then Ok number
  else Throw (Error "Assertion failed").

(** [BN.byteLength()] *)
Definition byteLength (n : N) : nat := N.to_nat ((N.size n + 7) / 8).

(** A web3.js public key wraps the number [_bn], which its constructors keep
    below 2^256. *)
Record PublicKey := { _bn : N }.

#[global] Instance PublicKey_eq_dec : EqDecision PublicKey.
Proof. solve_decision. Defined.

(** [toBytes()] / [toBuffer()]: 32 bytes, big-endian, zero padded. *)
Definition toBytes (key : PublicKey) : Buffer := be_bytes 32 (_bn key).
Definition toBuffer (key : PublicKey) : Buffer := toBytes key.

(** [new PublicKey(bytes)] *)
Definition new_PublicKey (value : Buffer) : Result PublicKey :=
  let bn := N_of_be value in
  if decide (byteLength bn <= 32)%nat then Ok {| _bn := bn |}
  else Throw (Error "Invalid public key input").

Module bs58.

Definition ALPHABET : list ascii :=
  list_ascii_of_string
    "123456789ABCDEFGHJKLMNPQRSTUVWXYZabcdefghijkmnopqrstuvwxyz".

Fixpoint digits (fuel : nat) (n : N) (acc : list ascii) : list ascii :=
  match fuel with
  | O => acc
  | S fuel' =>
      if n =? 0 then acc
      else digits fuel' (n / 58) (nth (N.to_nat (n mod 58)) ALPHABET "1"%char :: acc)
  end.

Fixpoint leading {A} `{EqDecision A} (x : A) (l : list A) : nat :=
  match l with
  | y :: l' => if decide (y = x) then S (leading x l') else O
  | [] => O
  end.

(** Each leading zero byte becomes a '1'; the rest is the number in base 58. *)
Definition encode (source : Buffer) : string :=
  string_of_list_ascii
    (repeat "1"%char (leading Byte.x00 source)
     ++ digits (8 * length source) (N_of_be source) []).

Fixpoint index_of (c : ascii) (l : list ascii) : option N :=
  match l with
  | [] => None
  | x :: l' => if decide (x = c) then Some 0 else N.succ <$> index_of c l'
  end.

Fixpoint value (cs : list ascii) (acc : N) : option N :=
  match cs with
  | [] => Some acc
  | c :: cs' => i ← index_of c ALPHABET; value cs' (acc * 58 + i)
  end.

Definition decode (s : string) : Result Buffer :=
  let cs := list_ascii_of_string s in
  match value cs 0 with
  | Some n => Ok (repeat Byte.x00 (leading "1"%char cs) ++ be_bytes (byteLength n) n)
  | None => Throw (Error "Non-base58 character")
  end.

End bs58.

(** [new PublicKey(string)] *)
Definition PublicKey_from_string (value : string) : Result PublicKey :=
  decoded ← bs58.decode value;
  if decide (length decoded = 32%nat) then Ok {| _bn := N_of_be decoded |}
  else Throw (Error "Invalid public key input").

Definition toBase58 (key : PublicKey) : string := bs58.encode (toBytes key).

Definition unwrap_key (r : Result PublicKey) : PublicKey :=
  match r with
  | Ok key => key
  | Throw _ => {| _bn := 0 |}
  end.

Module SystemProgram.
Definition programId : PublicKey :=
  Eval vm_compute in unwrap_key (PublicKey_from_string "11111111111111111111111111111111").
End SystemProgram.

(** web3.js searches the bump seeds from 255 downwards for an address off the
    curve; the search may fail.  Its arithmetic is not part of this
    repository: it enters as an interface. *)
Class Web3 := {
  findProgramAddressSync : list Buffer -> PublicKey -> Result (PublicKey * Z)
}.

Record AccountMeta := {
  pubkey : PublicKey;
  isSigner : bool;
  isWritable : bool
}.

Record TransactionInstruction := {
  keys : list AccountMeta;
  programId : PublicKey;
  data : Buffer
}.

Module AccountInfo.
Record t := {
  data : Buffer;
  executable : bool;
  lamports : N;
  owner : PublicKey
}.
End AccountInfo.

(** ** serialization.ts: the argument classes and instruction data *)

Definition number_or_undefined (n : option Z) : JSValue :=
  match n with
  | Some n => VNumber n
  | None => VUndefined
  end.

Module InitializeArgs.
(** The argument object of [createInitializeDataStoreInstruction].
    [bumpSeed] is declared a [number]; [None] is the object without that
    property. *)
Record t := {
  debug : bool;
  dataType : Z;
  bumpSeed : option Z;
  isCreated : bool;
  space : N;
  authority : PublicKey;
  isDynamic : bool
}.
End InitializeArgs.

Module UpdateArgs.
Record t := {
  debug : bool;
  data : Buffer;
  offset : N;
  reallocDown : bool;
  dataType : Z
}.
End UpdateArgs.

Definition new_InitializeDataStoreArgs (args : InitializeArgs.t) : JSObject :=
  {| constructor := InitializeDataStoreArgs;
     props := list_to_map
       [ ("debug", VBool (InitializeArgs.debug args));
         ("dataType", VNumber (InitializeArgs.dataType args));
         ("bumpSeed", number_or_undefined (InitializeArgs.bumpSeed args));
         ("isCreated", VBool (InitializeArgs.isCreated args));
         ("space", VBN (InitializeArgs.space args));
         ("authority", VBytes (toBytes (InitializeArgs.authority args)));
         ("isDynamic", VBool (InitializeArgs.isDynamic args)) ] |}.

Definition new_UpdateDataStoreArgs (args : UpdateArgs.t) (dataHash : Buffer)
  : JSObject :=
  {| constructor := UpdateDataStoreArgs;
     props := list_to_map
       [ ("debug", VBool (UpdateArgs.debug args));
         ("dataHash", VBytes dataHash);
         ("data", VBytes (UpdateArgs.data args));
         ("offset", VBN (UpdateArgs.offset args));
         ("reallocDown", VBool (UpdateArgs.reallocDown args));
         ("dataType", VNumber (UpdateArgs.dataType args)) ] |}.

Definition new_debug_only (class : Constructor) (debug : bool) : JSObject :=
  {| constructor := class; props := {[ "debug" := VBool debug ]} |}.

Definition new_UpdateDataStoreAuthorityArgs := new_debug_only UpdateDataStoreAuthorityArgs.
Definition new_FinalizeDataStoreArgs := new_debug_only FinalizeDataStoreArgs.
Definition new_CloseDataStoreArgs := new_debug_only CloseDataStoreArgs.

Definition createInitializeDataStoreInstruction (args : InitializeArgs.t)
  : Result Buffer :=
  let instruction := new_InitializeDataStoreArgs args in
  serializeInstructionData instruction.

Definition createUpdateDataStoreInstruction (args : UpdateArgs.t)
  : Result Buffer :=
  let dataHash := calculateDataHash (UpdateArgs.data args) in
  let instruction := new_UpdateDataStoreArgs args dataHash in
  serializeInstructionData instruction.

Definition createUpdateAuthorityInstruction (debug : bool) : Result Buffer :=
  serializeInstructionData (new_UpdateDataStoreAuthorityArgs debug).

Definition createFinalizeInstruction (debug : bool) : Result Buffer :=
  serializeInstructionData (new_FinalizeDataStoreArgs debug).

Definition createCloseInstruction (debug : bool) : Result Buffer :=
  serializeInstructionData (new_CloseDataStoreArgs debug).

(** ** index.ts *)

Definition DATA_STORE_PROGRAM_ID : PublicKey :=
  Eval vm_compute in
    unwrap_key (PublicKey_from_string "CxcgUrnSLjL7S44vLFxq6Jc7zscw5MUrZsobo711gmaq").

Definition PDA_SEED : string := "data_store".

Inductive DataStoreTypeOption := File | Directory.

Definition DataStoreTypeOption_value (t : DataStoreTypeOption) : Z :=
  match t with
  | File => 0
  | Directory => 1
  end.

Inductive SerializationStatusOption := Uninitialized | Initialized | Finalized.

Definition SerializationStatusOption_value (s : SerializationStatusOption) : Z :=
  match s with
  | Uninitialized => 0
  | Initialized => 1
  | Finalized => 2
  end.

Record IDataStoreAccountMetadata := {
  dataType : Z;
  authority : string;
  dataStatus : Z;
  bumpSeed : Z;
  dataHash : Buffer;
  isDynamic : bool;
  space : Z
}.

(** The object [borshDeserialize] hands back, before the authority bytes are
    turned into a base-58 string. *)
Module Decoded.
Record t := {
  dataType : Z;
  authority : Buffer;
  dataStatus : Z;
  bumpSeed : Z;
  dataHash : Buffer;
  isDynamic : bool;
  space : Z
}.
End Decoded.

(** Every name index.ts binds: its imports and its own declarations. *)
Definition index_ts_bindings : list string :=
  [ "AccountInfo"; "Connection"; "Keypair"; "PublicKey"; "SystemProgram";
    "TransactionInstruction"; "BN";
    "DATA_STORE_PROGRAM_ID"; "PDA_SEED"; "DataStoreTypeOption";
    "SerializationStatusOption"; "DataStoreProgram";
    "createInitializeDataStoreInstruction"; "createUpdateDataStoreInstruction";
    "createUpdateAuthorityInstruction"; "createFinalizeInstruction";
    "createCloseInstruction" ].

(** [borshSerialize] and [borshDeserialize] are used in index.ts and bound
    nowhere in it, so they are looked up in the global object of the
    runtime.  [None] is a global object without the property: evaluating the
    name throws a ReferenceError. *)
Record Globals := {
  borshSerialize : option (JSObject -> Result Buffer);
  borshDeserialize : option (Buffer -> Result Decoded.t)
}.

(** The global object of Node and of browsers has neither property. *)
Definition standard_globals : Globals :=
  {| borshSerialize := None; borshDeserialize := None |}.

Definition resolve {F : Type} (name : string) (binding : option F) : Result F :=
  match binding with
  | Some fn => Ok fn
  | None => Throw (ReferenceError name)
  end.

(** [debug || false] for the optional parameter [debug?: boolean] *)
Definition or_false (debug : option bool) : bool :=
  match debug with
  | Some b => b
  | None => false
  end.

(** The object literal [{ debug: ... }] *)
Definition debug_literal (debug : bool) : JSObject :=
  {| constructor := OtherConstructor "Object";
     props := {[ "debug" := VBool debug ]} |}.

Module DataStoreProgram.
Section WithLibraries.

Context `{Web3}.
Variable globals : Globals.

Definition getPDA (dataKey : PublicKey) : Result (PublicKey * Z) :=
  findProgramAddressSync
    [Buffer_from_string PDA_SEED; toBuffer dataKey]
    DATA_STORE_PROGRAM_ID.

Definition initializeDataStore
    (feePayer dataAccount authority : PublicKey)
    (dataType : DataStoreTypeOption) (isCreated : bool) (space : N)
    (isDynamic : bool) (debug : option bool)
  : Result TransactionInstruction :=
  '(pda, _) ← getPDA dataAccount;
  space_bn ← new_BN space;
  instructionData ← createInitializeDataStoreInstruction
    {| InitializeArgs.debug := or_false debug;
       InitializeArgs.dataType := DataStoreTypeOption_value dataType;
       InitializeArgs.bumpSeed := None;
       InitializeArgs.isCreated := isCreated;
       InitializeArgs.space := space_bn;
       InitializeArgs.authority := authority;
       InitializeArgs.isDynamic := isDynamic |};
  Ok {| keys :=
          [ {| pubkey := feePayer; isSigner := true; isWritable := true |};
            {| pubkey := dataAccount; isSigner := negb isCreated; isWritable := true |};
            {| pubkey := pda; isSigner := false; isWritable := true |};
            {| pubkey := SystemProgram.programId; isSigner := false; isWritable := false |} ];
        programId := DATA_STORE_PROGRAM_ID;
        data := instructionData |}.

Definition updateDataStore
    (authority dataAccount : PublicKey) (data : Buffer) (offset : N)
    (reallocDown : bool) (dataType : DataStoreTypeOption)
    (debug : option bool)
  : Result TransactionInstruction :=
  '(pda, _) ← getPDA dataAccount;
  offset_bn ← new_BN offset;
  instructionData ← createUpdateDataStoreInstruction
    {| UpdateArgs.debug := or_false debug;
       UpdateArgs.data := data;
       UpdateArgs.offset := offset_bn;
       UpdateArgs.reallocDown := reallocDown;
       UpdateArgs.dataType := DataStoreTypeOption_value dataType |};
  Ok {| keys :=
          [ {| pubkey := authority; isSigner := true; isWritable := true |};
            {| pubkey := dataAccount; isSigner := false; isWritable := true |};
            {| pubkey := pda; isSigner := false; isWritable := true |};
            {| pubkey := SystemProgram.programId; isSigner := false; isWritable := false |} ];
        programId := DATA_STORE_PROGRAM_ID;
        data := instructionData |}.

Definition updateDataStoreAuthority
    (oldAuthority dataAccount newAuthority : PublicKey)
    (debug : option bool)
  : Result TransactionInstruction :=
  '(pda, _) ← getPDA dataAccount;
  instructionData ← createUpdateAuthorityInstruction (or_false debug);
  Ok {| keys :=
          [ {| pubkey := oldAuthority; isSigner := true; isWritable := false |};
            {| pubkey := dataAccount; isSigner := false; isWritable := false |};
            {| pubkey := pda; isSigner := false; isWritable := true |};
            {| pubkey := newAuthority; isSigner := true; isWritable := false |} ];
        programId := DATA_STORE_PROGRAM_ID;
        data := instructionData |}.

Definition finalizeDataStore
    (authority dataAccount : PublicKey) (debug : option bool)
  : Result TransactionInstruction :=
  '(pda, _) ← getPDA dataAccount;
  instructionData ← createFinalizeInstruction (or_false debug);
  Ok {| keys :=
          [ {| pubkey := authority; isSigner := true; isWritable := false |};
            {| pubkey := dataAccount; isSigner := false; isWritable := false |};
            {| pubkey := pda; isSigner := false; isWritable := true |} ];
        programId := DATA_STORE_PROGRAM_ID;
        data := instructionData |}.

(** Unlike its siblings this builder does not call its [create...]
    function: it names [borshSerialize]. *)
Definition closeDataStore
    (authority dataAccount : PublicKey) (debug : option bool)
  : Result TransactionInstruction :=
  '(pda, _) ← getPDA dataAccount;
  serializer ← resolve "borshSerialize" (borshSerialize globals);
  instructionData ← serializer (debug_literal (or_false debug));
  Ok {| keys :=
          [ {| pubkey := authority; isSigner := true; isWritable := true |};
            {| pubkey := dataAccount; isSigner := false; isWritable := true |};
            {| pubkey := pda; isSigner := false; isWritable := true |} ];
        programId := DATA_STORE_PROGRAM_ID;
        data := instructionData |}.

Definition parseMetadataFromAccountInfo (metadataInfo : option AccountInfo.t)
  : Result IDataStoreAccountMetadata :=
  match metadataInfo with
  | None => Throw (Error "Invalid metadata account data")
  | Some info =>
      if decide (length (AccountInfo.data info) = 0%nat)
      then Throw (Error "Invalid metadata account data")
      else
        deserializer ← resolve "borshDeserialize" (borshDeserialize globals);
        metadata ← deserializer (AccountInfo.data info);
        key ← new_PublicKey (Decoded.authority metadata);
        Ok {| dataType := Decoded.dataType metadata;
              authority := toBase58 key;
              dataStatus := Decoded.dataStatus metadata;
              bumpSeed := Decoded.bumpSeed metadata;
              dataHash := Decoded.dataHash metadata;
              isDynamic := Decoded.isDynamic metadata;
              space := Decoded.space metadata |}
  end.

End WithLibraries.
End DataStoreProgram.


(** A stand-in for web3.js where a concrete library is needed: the first
    candidate of the search (bump seed 255), taken without the curve test. *)
Definition first_candidate_web3 : Web3 :=
  {| findProgramAddressSync := fun seeds programId =>
       Ok ({| _bn := N_of_be (SHA256.sha256
                        (concat seeds ++ [Byte.xff] ++ toBytes programId
                         ++ Buffer_from_string "ProgramDerivedAddress")) |},
           255%Z) |}.

(** ** Classes, inputs and runtimes the properties refer to *)

Definition registered (class : Constructor) : Prop :=
  In class
    [ InitializeDataStoreArgs; UpdateDataStoreArgs;
      UpdateDataStoreAuthorityArgs; FinalizeDataStoreArgs;
      CloseDataStoreArgs ].

#[global] Instance registered_dec (class : Constructor) : Decision (registered class).
Proof. unfold registered. apply in_dec. exact Constructor_eq_dec. Defined.

(** A write of "Hello" at offset 258 into a directory. *)
Definition hello_update : UpdateArgs.t :=
  {| UpdateArgs.debug := true;
     UpdateArgs.data := Buffer_from_string "Hello";
     UpdateArgs.offset := 258;
     UpdateArgs.reallocDown := false;
     UpdateArgs.dataType := 1 |}.


(** What the parser does in a standard runtime. *)
Definition parse_outcome (metadataInfo : option AccountInfo.t) : Exception :=
  match metadataInfo with
  | None => Error "Invalid metadata account data"
  | Some info =>
      match AccountInfo.data info with
      | [] => Error "Invalid metadata account data"
      | _ :: _ => ReferenceError "borshDeserialize"
      end
  end.

(** Keys for the concrete calls. *)
Definition payer_key : PublicKey := {| _bn := 7 |}.
Definition account_key : PublicKey := {| _bn := 1 |}.

(** A metadata account holding a single byte. *)
Definition one_byte_account : AccountInfo.t :=
  {| AccountInfo.data := [Byte.x00];
     AccountInfo.executable := false;
     AccountInfo.lamports := 0;
     AccountInfo.owner := DATA_STORE_PROGRAM_ID |}.

(** A web3.js whose address search finds no bump seed. *)
Definition failing_web3 : Web3 :=
  {| findProgramAddressSync := fun _ _ =>
       Throw (Error "Unable to find a viable program address nonce") |}.

(** A runtime whose global [borshDeserialize] hands back a given object. *)
Definition decoding_globals (metadata : Decoded.t) : Globals :=
  {| borshSerialize := None;
     borshDeserialize := Some (fun _ => Ok metadata) |}.

(** A decoded metadata object of a finalized file, with a given authority. *)
Definition finalized_file (authority : Buffer) : Decoded.t :=
  {| Decoded.dataType := DataStoreTypeOption_value File;
     Decoded.authority := authority;
     Decoded.dataStatus := SerializationStatusOption_value Finalized;
     Decoded.bumpSeed := 255;
     Decoded.dataHash := SHA256.sha256 [];
     Decoded.isDynamic := false;
     Decoded.space := 100 |}.

(** * Properties *)

(** ** Widths *)

Lemma le_bytes_length (w : nat) (n : N) : length (le_bytes w n) = w.
Proof.
  revert n. induction w as [|w IH]; intros n; simpl; [reflexivity|].
  now rewrite IH.
Qed.

Lemma be_bytes_length (w : nat) (n : N) : length (be_bytes w n) = w.
Proof. unfold be_bytes. rewrite length_rev. apply le_bytes_length. Qed.

Lemma toBytes_length (key : PublicKey) : length (toBytes key) = 32%nat.
Proof. apply be_bytes_length. Qed.

Lemma digest_length (s : SHA256.state) : length (SHA256.digest s) = 32%nat.
Proof.
  unfold SHA256.digest.
  repeat (rewrite length_app, be_bytes_length). rewrite be_bytes_length.
  reflexivity.
Qed.

Lemma sha256_length (msg : Buffer) : length (SHA256.sha256 msg) = 32%nat.
Proof. apply digest_length. Qed.

(** The digest of the standard test messages. *)
Example sha256_abc :
  SHA256.sha256 (Buffer_from_string "abc")
  = be_bytes 32 0xba7816bf8f01cfea414140de5dae2223b00361a396177a9cb410ff61f20015ad.
Proof. vm_compute. reflexivity. Qed.

Example sha256_empty :
  SHA256.sha256 []
  = be_bytes 32 0xe3b0c44298fc1c149afbf4c8996fb92427ae41e4649b934ca495991b7852b855.
Proof. vm_compute. reflexivity. Qed.

Example program_id_base58 :
  toBase58 DATA_STORE_PROGRAM_ID = "CxcgUrnSLjL7S44vLFxq6Jc7zscw5MUrZsobo711gmaq"
  /\ PublicKey_from_string "CxcgUrnSLjL7S44vLFxq6Jc7zscw5MUrZsobo711gmaq"
     = Ok DATA_STORE_PROGRAM_ID.
Proof. split; vm_compute; reflexivity. Qed.

(** ** The schema table *)

Lemma Map_get_registered (class : Constructor) :
  registered class <-> exists schema, Map_get schemas class = Some schema.
Proof.
  split.
  - intros Hin. unfold registered in Hin. simpl in Hin.
    destruct Hin as [<-|[<-|[<-|[<-|[<-|[]]]]]]; vm_compute; eauto.
  - intros [schema Hget]. unfold registered.
    destruct class; simpl; auto 7.
    vm_compute in Hget. discriminate.
Qed.

(** ** Byte values *)

Lemma N_of_byte_of_N (n : N) : N_of_byte (byte_of_N n) = n mod 256.
Proof.
  unfold N_of_byte, byte_of_N.
  destruct (Byte.of_N (n mod 256)) as [b|] eqn:Hof.
  - apply Byte.to_of_N. exact Hof.
  - apply Byte.of_N_None_iff in Hof.
    pose proof (N.mod_upper_bound n 256). lia.
Qed.

(** Reading the little-endian bytes back gives the number, when it fits. *)
Lemma N_of_le_le_bytes (w : nat) (n : N) :
  n < 256 ^ N.of_nat w -> N_of_le (le_bytes w n) = n.
Proof.
  revert n. induction w as [|w IH]; intros n Hlt.
  - simpl in *. lia.
  - cbn [le_bytes N_of_le]. rewrite N_of_byte_of_N.
    rewrite IH.
    + pose proof (N.div_mod n 256). lia.
    + rewrite Nat2N.inj_succ, N.pow_succ_r' in Hlt.
      apply N.Div0.div_lt_upper_bound. lia.
Qed.

Lemma N_of_be_snoc (bs : Buffer) (b : byte) :
  N_of_be (bs ++ [b]) = N_of_be bs * 256 + N_of_byte b.
Proof. unfold N_of_be. rewrite fold_left_app. reflexivity. Qed.

Lemma N_of_be_rev (bs : Buffer) : N_of_be (rev bs) = N_of_le bs.
Proof.
  induction bs as [|b bs IH]; [reflexivity|].
  cbn [rev N_of_le]. rewrite N_of_be_snoc, IH. lia.
Qed.

(** Reading the big-endian bytes back gives the number, when it fits. *)
Lemma N_of_be_be_bytes (w : nat) (n : N) :
  n < 256 ^ N.of_nat w -> N_of_be (be_bytes w n) = n.
Proof.
  intros Hlt. unfold be_bytes. rewrite N_of_be_rev.
  apply N_of_le_le_bytes. exact Hlt.
Qed.

Lemma byteLength_bound (n : N) (w : nat) :
  n < 256 ^ N.of_nat w -> (byteLength n <= w)%nat.
Proof.
  intros Hlt. unfold byteLength.
  destruct (N.eq_dec n 0) as [->|Hne]; [apply Nat.le_0_l|].
  assert (Hsize : N.size n <= 8 * N.of_nat w).
  { rewrite N.size_log2 by exact Hne.
    apply N.le_succ_l. apply N.log2_lt_pow2; [lia|].
    replace (2 ^ (8 * N.of_nat w)) with (256 ^ N.of_nat w); [exact Hlt|].
    change 256 with (2 ^ 8). rewrite <- N.pow_mul_r. reflexivity. }
  assert (Hdiv : (N.size n + 7) / 8 <= N.of_nat w).
  { apply N.lt_succ_r. apply N.Div0.div_lt_upper_bound. lia. }
  lia.
Qed.

(** [new PublicKey(key.toBytes())] is the key. *)
Lemma new_PublicKey_toBytes (key : PublicKey) :
  _bn key < 2 ^ 256 -> new_PublicKey (toBytes key) = Ok key.
Proof.
  intros Hlt. unfold new_PublicKey, toBytes.
  assert (Hlt' : _bn key < 256 ^ N.of_nat 32) by exact Hlt.
  rewrite N_of_be_be_bytes by exact Hlt'.
  rewrite decide_True by (apply byteLength_bound; exact Hlt').
  destruct key. reflexivity.
Qed.

(** ** The serializer entry point *)

(** For an instance of a registered class the descriptor is found and handed
    to [serialize], which throws. *)
Lemma serializeInstructionData_registered (instruction : JSObject) :
  registered (constructor instruction) ->
  serializeInstructionData instruction = Throw (TypeError "schema.get is not a function").
Proof.
  intros Hreg. apply Map_get_registered in Hreg as [schema Hget].
  unfold serializeInstructionData. rewrite Hget. reflexivity.
Qed.

Lemma serializeInstructionData_schema_error (instruction : JSObject) :
  serializeInstructionData instruction
    = Throw (Error "Schema not found for instruction")
  <-> ~ registered (constructor instruction).
Proof.
  split.
  - intros Hthrow Hreg.
    rewrite (serializeInstructionData_registered _ Hreg) in Hthrow.
    discriminate.
  - intros Hnot. unfold serializeInstructionData.
    destruct (Map_get schemas (constructor instruction)) as [schema|] eqn:Hget;
      [|reflexivity].
    exfalso. apply Hnot. apply Map_get_registered. eauto.
Qed.

(** C2, on the code. [createUpdateDataStoreInstruction] returns no bytes:
    for every argument object, once the digest is computed and the
    [UpdateDataStoreArgs] instance built, [serializeInstructionData] finds
    the descriptor and [serialize] throws the TypeError. *)
Theorem createUpdateDataStoreInstruction_throws (args : UpdateArgs.t) :
  createUpdateDataStoreInstruction args = Throw (TypeError "schema.get is not a function")
  /\ constructor (new_UpdateDataStoreArgs args (calculateDataHash (UpdateArgs.data args)))
     = UpdateDataStoreArgs
  /\ get_prop (new_UpdateDataStoreArgs args (calculateDataHash (UpdateArgs.data args)))
       "dataHash"
     = VBytes (SHA256.sha256 (UpdateArgs.data args)).
Proof. repeat split. Qed.

(** The write of "Hello" at offset 258. *)
Example createUpdateDataStoreInstruction_hello :
  createUpdateDataStoreInstruction hello_update
  = Throw (TypeError "schema.get is not a function").
Proof. reflexivity. Qed.

(** C5, on the code. [serializeInstructionData] throws "Schema not found for
    instruction" exactly when the constructor of its argument is not one of
    the five registered classes; when the constructor is registered it
    returns no bytes either: it throws the TypeError of [serialize]. *)
Theorem serializeInstructionData_outcomes (instruction : JSObject) :
  (serializeInstructionData instruction
     = Throw (Error "Schema not found for instruction")
   <-> ~ registered (constructor instruction))
  /\ (registered (constructor instruction) ->
      serializeInstructionData instruction = Throw (TypeError "schema.get is not a function")).
Proof.
  split.
  - apply serializeInstructionData_schema_error.
  - apply serializeInstructionData_registered.
Qed.

Lemma serializeInstructionData_outcomes_witness :
  registered (constructor (new_FinalizeDataStoreArgs false))
  /\ serializeInstructionData (new_FinalizeDataStoreArgs false) = Throw (TypeError "schema.get is not a function").
Proof.
  assert (Hreg : registered (constructor (new_FinalizeDataStoreArgs false)))
    by (apply (bool_decide_unpack (registered _)); vm_compute; exact I).
  split; [exact Hreg|].
  destruct (serializeInstructionData_outcomes (new_FinalizeDataStoreArgs false))
    as [_ Hthrows].
  exact (Hthrows Hreg).
Defined.



(** ** The builders of [DataStoreProgram] *)

Section Builders.

Context {web3 : Web3}.
Variable globals : Globals.

Import DataStoreProgram.

(** C1, on the code. Once the address search has succeeded and the size is a
    safe integer, [initializeDataStore] attaches no payload at all: the
    call of [createInitializeDataStoreInstruction] throws the TypeError of
    [serialize] before the instruction is built.  The argument object it
    hands over holds no bump seed, whatever seed the search returned. *)
Theorem initializeDataStore_attaches_no_payload
    (feePayer dataAccount authority pda : PublicKey) (bump : Z)
    (dataType : DataStoreTypeOption) (isCreated : bool) (space : N)
    (isDynamic : bool) (debug : option bool) :
  getPDA dataAccount = Ok (pda, bump) ->
  space < 2 ^ 53 ->
  initializeDataStore feePayer dataAccount authority dataType isCreated space
    isDynamic debug = Throw (TypeError "schema.get is not a function")
  /\ get_prop
       (new_InitializeDataStoreArgs
          {| InitializeArgs.debug := or_false debug;
             InitializeArgs.dataType := DataStoreTypeOption_value dataType;
             InitializeArgs.bumpSeed := None;
             InitializeArgs.isCreated := isCreated;
             InitializeArgs.space := space;
             InitializeArgs.authority := authority;
             InitializeArgs.isDynamic := isDynamic |})
       "bumpSeed"
     = VUndefined.
Proof.
  intros Hpda Hspace. split; [|reflexivity].
  unfold initializeDataStore. rewrite Hpda. cbn [mbind Result_bind].
  unfold new_BN. rewrite decide_True by exact Hspace. reflexivity.
Qed.

(** C9, on the code. [initializeDataStore] returns no instruction, hence no
    account list, for [isCreated] false and true alike: every call throws. *)
Theorem initializeDataStore_returns_no_instruction
    (feePayer dataAccount authority : PublicKey)
    (dataType : DataStoreTypeOption) (isCreated : bool) (space : N)
    (isDynamic : bool) (debug : option bool) :
  exists exn,
    initializeDataStore feePayer dataAccount authority dataType isCreated
      space isDynamic debug = Throw exn.
Proof.
  unfold initializeDataStore.
  destruct (getPDA dataAccount) as [[pda bump]|exn]; cbn [mbind Result_bind].
  - unfold new_BN. case_decide; eexists; reflexivity.
  - eexists. reflexivity.
Qed.

(** C8. [getPDA] is the program-address search applied to the seed
    "data_store", the 32 bytes of the data key and the program id; keys with
    the same bytes get the same address and bump seed. *)
Theorem getPDA_deterministic (first second : PublicKey) :
  toBytes first = toBytes second ->
  getPDA first = getPDA second
  /\ getPDA first
     = findProgramAddressSync
         [Buffer_from_string "data_store"; toBytes first]
         DATA_STORE_PROGRAM_ID.
Proof.
  intros Hbytes. unfold getPDA, toBuffer. rewrite Hbytes. split; reflexivity.
Qed.


End Builders.

(** ** The names index.ts leaves unbound *)

Lemma borsh_helpers_unbound :
  ~ In "borshSerialize" index_ts_bindings
  /\ ~ In "borshDeserialize" index_ts_bindings.
Proof.
  split; intros Hin; repeat (destruct Hin as [Heq|Hin]; [discriminate Heq|]);
    exact Hin.
Qed.

Section DebugOnlyBuilders.

Context {web3 : Web3}.

Import DataStoreProgram.

(** The function [closeDataStore] imports and does not call throws as well. *)
Lemma createCloseInstruction_throws (debug : bool) :
  createCloseInstruction debug = Throw (TypeError "schema.get is not a function").
Proof. reflexivity. Qed.

(** C3, on the code. Once the address search has succeeded, none of the
    three builders returns an instruction: [updateDataStoreAuthority] and
    [finalizeDataStore] throw the TypeError of [serialize], and
    [closeDataStore] throws a ReferenceError for [borshSerialize]. *)
Theorem debug_only_builders_throw
    (oldAuthority dataAccount newAuthority pda : PublicKey) (bump : Z)
    (debug : option bool) :
  getPDA dataAccount = Ok (pda, bump) ->
  updateDataStoreAuthority oldAuthority dataAccount newAuthority debug
    = Throw (TypeError "schema.get is not a function")
  /\ finalizeDataStore oldAuthority dataAccount debug = Throw (TypeError "schema.get is not a function")
  /\ closeDataStore standard_globals oldAuthority dataAccount debug
     = Throw (ReferenceError "borshSerialize").
Proof.
  intros Hpda. unfold updateDataStoreAuthority, finalizeDataStore, closeDataStore.
  rewrite Hpda. repeat split; reflexivity.
Qed.

End DebugOnlyBuilders.

(** ** The metadata parser *)

Import DataStoreProgram.

(** With a global [borshDeserialize], the parser copies the decoded fields
    and prints the authority in base 58. *)
Lemma parseMetadataFromAccountInfo_with_deserializer
    (globals : Globals) (deserializer : Buffer -> Result Decoded.t)
    (info : AccountInfo.t) (metadata : Decoded.t) (key : PublicKey) :
  AccountInfo.data info <> [] ->
  borshDeserialize globals = Some deserializer ->
  deserializer (AccountInfo.data info) = Ok metadata ->
  new_PublicKey (Decoded.authority metadata) = Ok key ->
  parseMetadataFromAccountInfo globals (Some info)
  = Ok {| dataType := Decoded.dataType metadata;
          authority := toBase58 key;
          dataStatus := Decoded.dataStatus metadata;
          bumpSeed := Decoded.bumpSeed metadata;
          dataHash := Decoded.dataHash metadata;
          isDynamic := Decoded.isDynamic metadata;
          space := Decoded.space metadata |}.
Proof.
  intros Hdata Hbound Hdecoded Hkey. unfold parseMetadataFromAccountInfo.
  rewrite decide_False by (destruct (AccountInfo.data info); [congruence|discriminate]).
  rewrite Hbound. cbn [mbind Result_bind resolve].
  rewrite Hdecoded. cbn [mbind Result_bind]. rewrite Hkey. reflexivity.
Qed.

Lemma parseMetadataFromAccountInfo_standard
    (metadataInfo : option AccountInfo.t) :
  parseMetadataFromAccountInfo standard_globals metadataInfo
  = Throw (parse_outcome metadataInfo).
Proof.
  destruct metadataInfo as [info|]; [|reflexivity].
  unfold parseMetadataFromAccountInfo, parse_outcome.
  destruct (AccountInfo.data info); reflexivity.
Qed.

(** C4, on the code. The parser throws "Invalid metadata account data"
    exactly when its argument is null or holds an empty buffer; on every
    account with a non-empty buffer it returns no record: it throws a
    ReferenceError for [borshDeserialize]. *)
Theorem parseMetadataFromAccountInfo_throws
    (metadataInfo : option AccountInfo.t) :
  (parseMetadataFromAccountInfo standard_globals metadataInfo
     = Throw (Error "Invalid metadata account data")
   <-> metadataInfo = None
       \/ exists info, metadataInfo = Some info /\ AccountInfo.data info = [])
  /\ (forall info,
        metadataInfo = Some info -> AccountInfo.data info <> [] ->
        parseMetadataFromAccountInfo standard_globals metadataInfo
        = Throw (ReferenceError "borshDeserialize")).
Proof.
  rewrite parseMetadataFromAccountInfo_standard. split.
  - destruct metadataInfo as [info|]; simpl.
    + destruct (AccountInfo.data info) eqn:Hdata; split.
      * intros _. right. exists info. split; [reflexivity|exact Hdata].
      * reflexivity.
      * discriminate.
      * intros [Hnone|[info' [Hsome Hempty]]]; [discriminate|].
        injection Hsome as <-. congruence.
    + split; [intros _; left; reflexivity | reflexivity].
  - intros info -> Hdata. simpl.
    destruct (AccountInfo.data info); [congruence|reflexivity].
Qed.

(** C6, on the code. Whatever layout a metadata record is serialized in,
    parsing the account that holds those bytes returns no record. *)
Theorem parseMetadataFromAccountInfo_no_round_trip
    (layout : IDataStoreAccountMetadata -> Buffer)
    (metadata : IDataStoreAccountMetadata)
    (executable : bool) (lamports : N) (owner : PublicKey) :
  exists exn,
    parseMetadataFromAccountInfo standard_globals
      (Some {| AccountInfo.data := layout metadata;
               AccountInfo.executable := executable;
               AccountInfo.lamports := lamports;
               AccountInfo.owner := owner |})
    = Throw exn.
Proof. eexists. apply parseMetadataFromAccountInfo_standard. Qed.

(** ** The theorems at concrete inputs *)

(** The first call of the upload test: a file of 100 bytes, not yet created,
    debug on. *)
Lemma initializeDataStore_attaches_no_payload_witness :
  exists pda,
    @DataStoreProgram.getPDA first_candidate_web3 account_key = Ok (pda, 255%Z)
    /\ @DataStoreProgram.initializeDataStore first_candidate_web3
         payer_key account_key payer_key File false 100 false (Some true)
       = Throw (TypeError "schema.get is not a function").
Proof.
  eexists.
  destruct (@initializeDataStore_attaches_no_payload first_candidate_web3
              payer_key account_key payer_key _ 255%Z File false 100 false
              (Some true) eq_refl)
    as [Hthrows _].
  - reflexivity.
  - split; [reflexivity|exact Hthrows].
Defined.

Lemma getPDA_deterministic_witness :
  @DataStoreProgram.getPDA first_candidate_web3 account_key
  = @findProgramAddressSync first_candidate_web3
      [Buffer_from_string "data_store"; toBytes account_key]
      DATA_STORE_PROGRAM_ID.
Proof.
  destruct (@getPDA_deterministic first_candidate_web3 account_key account_key
              eq_refl) as [_ Hsearch].
  exact Hsearch.
Defined.

Lemma debug_only_builders_throw_witness :
  @DataStoreProgram.finalizeDataStore first_candidate_web3
    payer_key account_key (Some true)
  = Throw (TypeError "schema.get is not a function")
  /\ @DataStoreProgram.closeDataStore first_candidate_web3 standard_globals
       payer_key account_key (Some true)
     = Throw (ReferenceError "borshSerialize").
Proof.
  destruct (@debug_only_builders_throw first_candidate_web3
              payer_key account_key payer_key _ 255%Z (Some true) eq_refl)
    as [_ [Hfinalize Hclose]].
  split; [exact Hfinalize|exact Hclose].
Defined.

Lemma parseMetadataFromAccountInfo_throws_witness :
  DataStoreProgram.parseMetadataFromAccountInfo standard_globals
    (Some one_byte_account)
  = Throw (ReferenceError "borshDeserialize").
Proof.
  destruct (parseMetadataFromAccountInfo_throws (Some one_byte_account))
    as [_ Hnonempty].
  apply (Hnonempty one_byte_account eq_refl). discriminate.
Defined.

(** * Further properties of the builders and the parser *)

(** ** The functions that build instruction data *)

(** X18. None of the other four functions that build instruction data
    returns: for every argument, [createInitializeDataStoreInstruction],
    [createUpdateAuthorityInstruction], [createFinalizeInstruction] and
    [createCloseInstruction] throw the TypeError of [serialize]. *)
Theorem create_functions_throw (args : InitializeArgs.t) (debug : bool) :
  createInitializeDataStoreInstruction args = Throw (TypeError "schema.get is not a function")
  /\ createUpdateAuthorityInstruction debug = Throw (TypeError "schema.get is not a function")
  /\ createFinalizeInstruction debug = Throw (TypeError "schema.get is not a function")
  /\ createCloseInstruction debug = Throw (TypeError "schema.get is not a function").
Proof.
  unfold createInitializeDataStoreInstruction, createUpdateAuthorityInstruction,
    createFinalizeInstruction, createCloseInstruction.
  repeat split; apply serializeInstructionData_registered;
    apply (bool_decide_unpack (registered _)); vm_compute; exact I.
Qed.

(** ** The builders: when and what they throw *)

Section BuilderProperties.

Context {web3 : Web3}.
Variable globals : Globals.

Import DataStoreProgram.

(** X11. When the address search throws, each of the five builders throws
    the same exception, before anything else is evaluated: not the
    assertion of [new BN], not a writer's error, and in [closeDataStore] not
    the ReferenceError. *)
Theorem builders_propagate_search_failure
    (feePayer dataAccount authority newAuthority : PublicKey)
    (dataType : DataStoreTypeOption) (isCreated isDynamic reallocDown : bool)
    (space offset : N) (payload : Buffer) (debug : option bool)
    (exn : Exception) :
  getPDA dataAccount = Throw exn ->
  initializeDataStore feePayer dataAccount authority dataType isCreated space
    isDynamic debug = Throw exn
  /\ updateDataStore authority dataAccount payload offset reallocDown dataType
       debug = Throw exn
  /\ updateDataStoreAuthority authority dataAccount newAuthority debug
     = Throw exn
  /\ finalizeDataStore authority dataAccount debug = Throw exn
  /\ closeDataStore globals authority dataAccount debug = Throw exn.
Proof.
  intros Hpda.
  unfold initializeDataStore, updateDataStore, updateDataStoreAuthority,
    finalizeDataStore, closeDataStore.
  rewrite Hpda. repeat split; reflexivity.
Qed.

(** X14. A size or an offset of 2^53 or more stops at [new BN]: once the
    address search has succeeded, the builder throws "Assertion failed",
    whatever the other arguments. *)
Theorem unsafe_integer_throws
    (feePayer dataAccount authority pda : PublicKey) (bump : Z)
    (dataType : DataStoreTypeOption) (isCreated isDynamic reallocDown : bool)
    (number : N) (payload : Buffer) (debug : option bool) :
  getPDA dataAccount = Ok (pda, bump) ->
  2 ^ 53 <= number ->
  initializeDataStore feePayer dataAccount authority dataType isCreated number
    isDynamic debug = Throw (Error "Assertion failed")
  /\ updateDataStore authority dataAccount payload number reallocDown dataType
       debug = Throw (Error "Assertion failed").
Proof.
  intros Hpda Hbig. unfold initializeDataStore, updateDataStore.
  rewrite Hpda. cbn [mbind Result_bind]. unfold new_BN.
  rewrite decide_False by lia. split; reflexivity.
Qed.

(** X19. In a standard runtime no builder returns; which exception it
    throws is decided in this order: the exception of the address search;
    then, in [initializeDataStore] and [updateDataStore], "Assertion failed"
    for a size or offset of 2^53 or more; then the TypeError of [serialize],
    or in [closeDataStore] the ReferenceError. *)
Theorem builders_outcomes
    (feePayer dataAccount authority newAuthority : PublicKey)
    (dataType : DataStoreTypeOption) (isCreated isDynamic reallocDown : bool)
    (space offset : N) (payload : Buffer) (debug : option bool) :
  initializeDataStore feePayer dataAccount authority dataType isCreated space
    isDynamic debug
  = Throw (match getPDA dataAccount with
           | Throw exn => exn
           | Ok _ =>
               if decide (space < 2 ^ 53)
               then TypeError "schema.get is not a function"
               else Error "Assertion failed"
           end)
  /\ updateDataStore authority dataAccount payload offset reallocDown dataType
       debug
     = Throw (match getPDA dataAccount with
              | Throw exn => exn
              | Ok _ =>
                  if decide (offset < 2 ^ 53)
                  then TypeError "schema.get is not a function"
                  else Error "Assertion failed"
              end)
  /\ updateDataStoreAuthority authority dataAccount newAuthority debug
     = Throw (match getPDA dataAccount with
              | Throw exn => exn
              | Ok _ => TypeError "schema.get is not a function"
              end)
  /\ finalizeDataStore authority dataAccount debug
     = Throw (match getPDA dataAccount with
              | Throw exn => exn
              | Ok _ => TypeError "schema.get is not a function"
              end)
  /\ closeDataStore standard_globals authority dataAccount debug
     = Throw (match getPDA dataAccount with
              | Throw exn => exn
              | Ok _ => ReferenceError "borshSerialize"
              end).
Proof.
  unfold initializeDataStore, updateDataStore, updateDataStoreAuthority,
    finalizeDataStore, closeDataStore.
  destruct (getPDA dataAccount) as [[pda bump]|exn]; cbn [mbind Result_bind].
  - unfold new_BN. repeat split; try reflexivity; case_decide; reflexivity.
  - repeat split; reflexivity.
Qed.

End BuilderProperties.

(** ** The parser with a decoder in scope *)

(** X15. With a global [borshDeserialize] that decodes the buffer, the
    parser returns the decoded fields unchanged and, for authority bytes
    that are the 32 bytes of a key, the base-58 string of that key. *)
Theorem parseMetadataFromAccountInfo_authority
    (globals : Globals) (deserializer : Buffer -> Result Decoded.t)
    (info : AccountInfo.t) (metadata : Decoded.t) (key : PublicKey) :
  AccountInfo.data info <> [] ->
  borshDeserialize globals = Some deserializer ->
  deserializer (AccountInfo.data info) = Ok metadata ->
  Decoded.authority metadata = toBytes key ->
  _bn key < 2 ^ 256 ->
  parseMetadataFromAccountInfo globals (Some info)
  = Ok {| dataType := Decoded.dataType metadata;
          authority := toBase58 key;
          dataStatus := Decoded.dataStatus metadata;
          bumpSeed := Decoded.bumpSeed metadata;
          dataHash := Decoded.dataHash metadata;
          isDynamic := Decoded.isDynamic metadata;
          space := Decoded.space metadata |}.
Proof.
  intros Hdata Hbound Hdecoded Hauthority Hkey.
  apply (parseMetadataFromAccountInfo_with_deserializer globals deserializer);
    try assumption.
  rewrite Hauthority. apply new_PublicKey_toBytes. exact Hkey.
Qed.

Lemma parseMetadataFromAccountInfo_authority_witness :
  exists parsed,
    parseMetadataFromAccountInfo
      (decoding_globals (finalized_file (toBytes DATA_STORE_PROGRAM_ID)))
      (Some one_byte_account)
    = Ok parsed
    /\ authority parsed = "CxcgUrnSLjL7S44vLFxq6Jc7zscw5MUrZsobo711gmaq"
    /\ dataStatus parsed = SerializationStatusOption_value Finalized.
Proof.
  eexists. split.
  - apply (parseMetadataFromAccountInfo_authority
             (decoding_globals (finalized_file (toBytes DATA_STORE_PROGRAM_ID)))
             (fun _ => Ok (finalized_file (toBytes DATA_STORE_PROGRAM_ID)))
             one_byte_account
             (finalized_file (toBytes DATA_STORE_PROGRAM_ID))
             DATA_STORE_PROGRAM_ID).
    + discriminate.
    + reflexivity.
    + reflexivity.
    + reflexivity.
    + reflexivity.
  - cbn [authority dataStatus]. split; [vm_compute|]; reflexivity.
Defined.

(** X16. Decoded authority bytes that denote a number of more than 32 bytes
    make the parser throw "Invalid public key input". *)
Theorem parseMetadataFromAccountInfo_long_authority
    (globals : Globals) (deserializer : Buffer -> Result Decoded.t)
    (info : AccountInfo.t) (metadata : Decoded.t) :
  AccountInfo.data info <> [] ->
  borshDeserialize globals = Some deserializer ->
  deserializer (AccountInfo.data info) = Ok metadata ->
  (32 < byteLength (N_of_be (Decoded.authority metadata)))%nat ->
  parseMetadataFromAccountInfo globals (Some info)
  = Throw (Error "Invalid public key input").
Proof.
  intros Hdata Hbound Hdecoded Hlong. unfold parseMetadataFromAccountInfo.
  rewrite decide_False by (destruct (AccountInfo.data info); [congruence|discriminate]).
  rewrite Hbound. cbn [mbind Result_bind resolve].
  rewrite Hdecoded. cbn [mbind Result_bind].
  unfold new_PublicKey. rewrite decide_False by lia. reflexivity.
Qed.

Lemma parseMetadataFromAccountInfo_long_authority_witness :
  parseMetadataFromAccountInfo
    (decoding_globals (finalized_file (Byte.x01 :: repeat Byte.x00 32)))
    (Some one_byte_account)
  = Throw (Error "Invalid public key input").
Proof.
  apply (parseMetadataFromAccountInfo_long_authority
           (decoding_globals (finalized_file (Byte.x01 :: repeat Byte.x00 32)))
           (fun _ => Ok (finalized_file (Byte.x01 :: repeat Byte.x00 32)))
           one_byte_account
           (finalized_file (Byte.x01 :: repeat Byte.x00 32))).
  - discriminate.
  - reflexivity.
  - reflexivity.
  - vm_compute. lia.
Defined.

(** ** The builder properties at concrete inputs *)

Lemma builders_propagate_search_failure_witness :
  @DataStoreProgram.closeDataStore failing_web3 standard_globals
    payer_key account_key None
  = Throw (Error "Unable to find a viable program address nonce").
Proof.
  destruct (@builders_propagate_search_failure failing_web3 standard_globals
              payer_key account_key payer_key payer_key File false false
              false 0 0 [] None
              (Error "Unable to find a viable program address nonce") eq_refl)
    as (_ & _ & _ & _ & Hclose).
  exact Hclose.
Defined.

Lemma unsafe_integer_throws_witness :
  @DataStoreProgram.initializeDataStore first_candidate_web3
    payer_key account_key payer_key File false (2 ^ 53) false None
  = Throw (Error "Assertion failed").
Proof.
  destruct (@unsafe_integer_throws first_candidate_web3
              payer_key account_key payer_key _ 255%Z File false false false
              (2 ^ 53) [] None eq_refl)
    as [Hinitialize _].
  - vm_compute. discriminate.
  - exact Hinitialize.
Defined.

(** ** The object literal of [closeDataStore] *)

(** X17. The object [closeDataStore] builds is a plain literal, not an
    instance of [CloseDataStoreArgs]: with [borshSerialize] bound to the
    module's own [serializeInstructionData], the builder would throw "Schema
    not found for instruction", for either value of the flag. *)
Theorem closeDataStore_literal_has_no_schema
    (web3 : Web3) (globals : Globals)
    (authority dataAccount pda : PublicKey) (bump : Z) (debug : option bool) :
  @getPDA web3 dataAccount = Ok (pda, bump) ->
  borshSerialize globals = Some serializeInstructionData ->
  @closeDataStore web3 globals authority dataAccount debug
  = Throw (Error "Schema not found for instruction").
Proof.
  intros Hpda Hbound. unfold closeDataStore.
  rewrite Hpda, Hbound. reflexivity.
Qed.

Lemma closeDataStore_literal_has_no_schema_witness :
  @closeDataStore first_candidate_web3
    {| borshSerialize := Some serializeInstructionData; borshDeserialize := None |}
    payer_key account_key (Some true)
  = Throw (Error "Schema not found for instruction").
Proof.
  apply (closeDataStore_literal_has_no_schema first_candidate_web3
           {| borshSerialize := Some serializeInstructionData;
              borshDeserialize := None |}
           payer_key account_key _ 255%Z (Some true) eq_refl eq_refl).
Defined.
